(** * AD56X4 quad DAC driver: message encoding and command layer

    A shallow embedding of [AD56X4.h] / [AD56X4.cpp] (Arduino library for
    the Analog Devices AD5624/AD5644/AD5664 family) together with the
    properties of the 24 bit SPI messages the driver puts on the bus.

    The driver keeps no state of its own.  Everything it does is a
    sequence of calls into the Arduino core ([digitalWrite]) and the SPI
    library ([SPI.setDataMode], [SPI.setBitOrder], [SPI.transfer]).  The
    embedding threads the log of those calls through a small monad; a
    read outside an array (undefined behaviour in C++) aborts the run. *)

From Stdlib Require Import ZArith List Bool Lia.
Import ListNotations.
Local Open Scope Z_scope.

(** ** The Arduino side: integer types, conversions, library calls *)

Module Arduino.

(** The Arduino core ([Arduino.h], [SPI.h]) is outside the repository;
    what the driver uses of it is written down here.  [byte] is
    [uint8_t], [word] is [uint16_t]; both are carried as [Z] and the
    conversions wrap around. *)
Definition is_byte (x : Z) : Prop := 0 <= x < 256.
Definition is_word (x : Z) : Prop := 0 <= x < 65536.

Definition to_byte (x : Z) : Z := x mod 256.
Definition to_word (x : Z) : Z := x mod 65536.

(** Modelled from the spec: the declaration of [boolean] is in
    [Arduino.h], outside the repository.  A [boolean] is taken as one of
    two values, read as 0 and 1 by [byte(b)] and [word(b)]. *)
Definition of_bool (b : bool) : Z := if b then 1 else 0.

(** [#define highByte(w) ((uint8_t) ((w) >> 8))]
    [#define lowByte(w)  ((uint8_t) ((w) & 0xff))] *)
Definition highByte (w : Z) : Z := to_byte (Z.shiftr w 8).
Definition lowByte (w : Z) : Z := to_byte (Z.land w 255).

Inductive level := LOW | HIGH.
Inductive spi_mode := SPI_MODE0 | SPI_MODE1 | SPI_MODE2 | SPI_MODE3.
Inductive bit_order := LSBFIRST | MSBFIRST.

(** One call into the platform, with its arguments. *)
Inductive call :=
| SPI_setDataMode (m : spi_mode)
| SPI_setBitOrder (o : bit_order)
| digitalWrite (pin : Z) (v : level)
| SPI_transfer (b : Z).

(** Computations over the log of platform calls made so far (oldest
    first).  [None] is a run that left defined behaviour. *)
Definition M (A : Type) : Type := list call -> option (A * list call).

Definition ret {A} (a : A) : M A := fun log => Some (a, log).

Definition bind {A B} (m : M A) (k : A -> M B) : M B :=
  fun log => match m log with
             | Some (a, log') => k a log'
             | None => None
             end.

Definition undefined {A} : M A := fun _ => None.

Definition perform (c : call) : M unit := fun log => Some (tt, log ++ [c]).

(** [a[i]] for an array of [length a] elements. *)
Definition index {A} (a : list A) (i : Z) : M A :=
  if i <? 0 then undefined
  else match nth_error a (Z.to_nat i) with
       | Some x => ret x
       | None => undefined
       end.

(** The calls a computation adds to an empty log. *)
Definition calls {A} (m : M A) : option (list call) :=
  match m [] with
  | Some (_, log) => Some log
  | None => None
  end.

End Arduino.

Import Arduino.

Declare Scope io_scope.
Delimit Scope io_scope with io.
Notation "x <- m ;; k" := (bind m (fun x => k))
  (at level 61, m at next level, right associativity) : io_scope.
Notation "m ;; k" := (bind m (fun _ => k))
  (at level 61, right associativity) : io_scope.
Local Open Scope io_scope.

(** ** The driver *)

Module AD56X4.

(** *** AD56X4.h: the defined values, chosen to be exactly the values
    that go into the SPI message *)

Definition AD56X4_COMMAND_WRITE_INPUT_REGISTER : Z := 0.              (* B00000000 *)
Definition AD56X4_COMMAND_UPDATE_DAC_REGISTER : Z := 8.               (* B00001000 *)
Definition AD56X4_COMMAND_WRITE_INPUT_REGISTER_UPDATE_ALL : Z := 16.  (* B00010000 *)
Definition AD56X4_COMMAND_WRITE_UPDATE_CHANNEL : Z := 24.             (* B00011000 *)
Definition AD56X4_COMMAND_POWER_UPDOWN : Z := 32.                     (* B00100000 *)
Definition AD56X4_COMMAND_RESET : Z := 40.                            (* B00101000 *)
Definition AD56X4_COMMAND_SET_LDAC : Z := 48.                         (* B00110000 *)
Definition AD56X4_COMMAND_REFERENCE_ONOFF : Z := 56.                  (* B00111000 *)

Definition AD56X4_CHANNEL_A : Z := 0.    (* B00000000 *)
Definition AD56X4_CHANNEL_B : Z := 1.    (* B00000001 *)
Definition AD56X4_CHANNEL_C : Z := 2.    (* B00000010 *)
Definition AD56X4_CHANNEL_D : Z := 3.    (* B00000011 *)
Definition AD56X4_CHANNEL_ALL : Z := 7.  (* B00000111 *)

Definition AD56X4_SETMODE_INPUT : Z := AD56X4_COMMAND_WRITE_INPUT_REGISTER.
Definition AD56X4_SETMODE_INPUT_DAC : Z := AD56X4_COMMAND_WRITE_UPDATE_CHANNEL.
Definition AD56X4_SETMODE_INPUT_DAC_ALL : Z :=
  AD56X4_COMMAND_WRITE_INPUT_REGISTER_UPDATE_ALL.

Definition AD56X4_POWERMODE_NORMAL : Z := 0.           (* B00000000 *)
Definition AD56X4_POWERMODE_POWERDOWN_1K : Z := 16.    (* B00010000 *)
Definition AD56X4_POWERMODE_POWERDOWN_100K : Z := 32.  (* B00100000 *)
Definition AD56X4_POWERMODE_TRISTATE : Z := 48.        (* B00110000 *)

(** *** AD56X4.cpp *)

(** [void writeMessage (int SS_pin, byte command, byte address, word data)] *)
Definition writeMessage (SS_pin command address data : Z) : M unit :=
  perform (SPI_setDataMode SPI_MODE1) ;;
  perform (SPI_setBitOrder MSBFIRST) ;;
  perform (digitalWrite SS_pin LOW) ;;
  perform (SPI_transfer
             (to_byte (Z.lor (Z.land command 56) (Z.land address 7)))) ;;
  perform (SPI_transfer (highByte data)) ;;
  perform (SPI_transfer (lowByte data)) ;;
  perform (digitalWrite SS_pin HIGH).

(** The test both array and single channel [setChannel] start with. *)
Definition valid_setMode (setMode : Z) : bool :=
  (setMode =? AD56X4_SETMODE_INPUT)
  || (setMode =? AD56X4_SETMODE_INPUT_DAC)
  || (setMode =? AD56X4_SETMODE_INPUT_DAC_ALL).

(** [void setChannel (int SS_pin, byte setMode, byte channel, word value)] *)
Definition setChannel (SS_pin setMode channel value : Z) : M unit :=
  if valid_setMode setMode
  then writeMessage SS_pin setMode channel value
  else ret tt.

(** The loop [for (int i = 3; i >= 0; i--)] of the array form, entered
    with [n] iterations left, that is with [i = n - 1]. *)
Fixpoint setChannel_for (SS_pin setMode : Z) (values : list Z) (n : nat)
  : M unit :=
  match n with
  | O => ret tt
  | S n' =>
      let i := Z.of_nat n' in
      v <- index values (3 - i) ;;
      writeMessage SS_pin setMode (to_byte i) v ;;
      setChannel_for SS_pin setMode values n'
  end.

(** [void setChannel (int SS_pin, byte setMode, word values[])] *)
Definition setChannel_array (SS_pin setMode : Z) (values : list Z) : M unit :=
  if valid_setMode setMode
  then setChannel_for SS_pin setMode values 4
  else ret tt.

(** [void setChannel (int SS_pin, byte setMode, word value_D,
                      word value_C, word value_B, word value_A)] *)
Definition setChannel_DCBA (SS_pin setMode value_D value_C value_B value_A : Z)
  : M unit :=
  let values := [value_D; value_C; value_B; value_A] in
  setChannel_array SS_pin setMode values.

(** [void updateChannel (int SS_pin, byte channel)] *)
Definition updateChannel (SS_pin channel : Z) : M unit :=
  writeMessage SS_pin AD56X4_COMMAND_UPDATE_DAC_REGISTER channel 0.

(** [word makeChannelMask (boolean channel_D, boolean channel_C,
                           boolean channel_B, boolean channel_A)] *)
Definition makeChannelMask (channel_D channel_C channel_B channel_A : bool)
  : Z :=
  to_word (Z.lor (Z.lor (Z.lor (Z.shiftl (of_bool channel_D) 3)
                               (Z.shiftl (of_bool channel_C) 2))
                        (Z.shiftl (of_bool channel_B) 1))
                 (of_bool channel_A)).

(** [word makeChannelMask (boolean channels[])] *)
Definition makeChannelMask_array (channels : list bool) : M Z :=
  c0 <- index channels 0 ;;
  c1 <- index channels 1 ;;
  c2 <- index channels 2 ;;
  c3 <- index channels 3 ;;
  ret (to_word (Z.lor (Z.lor (Z.lor (Z.shiftl (of_bool c0) 3)
                                    (Z.shiftl (of_bool c1) 2))
                             (Z.shiftl (of_bool c2) 1))
                      (of_bool c3))).

(** [void powerUpDown (int SS_pin, byte powerMode, byte channelMask)] *)
Definition powerUpDown (SS_pin powerMode channelMask : Z) : M unit :=
  writeMessage SS_pin AD56X4_COMMAND_POWER_UPDOWN 0
    (to_word (Z.lor (Z.land 48 powerMode) (Z.land 15 channelMask))).

(** [void powerUpDown (int SS_pin, byte powerMode, boolean channels[])];
    the mask comes back as a [word] and is passed on as a [byte]. *)
Definition powerUpDown_array (SS_pin powerMode : Z) (channels : list bool)
  : M unit :=
  mask <- makeChannelMask_array channels ;;
  powerUpDown SS_pin powerMode (to_byte mask).

(** [void powerUpDown (int SS_pin, byte powerMode, boolean channel_D,
                       boolean channel_C, boolean channel_B,
                       boolean channel_A)] *)
Definition powerUpDown_DCBA (SS_pin powerMode : Z)
    (channel_D channel_C channel_B channel_A : bool) : M unit :=
  powerUpDown SS_pin powerMode
    (to_byte (makeChannelMask channel_D channel_C channel_B channel_A)).

(** The loop [for (int i = 0; i < 4; i++)] of the power mode array
    form, entered with [n] iterations left at index [i] with the
    current [byte channelMask]. *)
Fixpoint powerUpDown_for (SS_pin : Z) (powerModes : list Z)
    (n : nat) (i channelMask : Z) : M unit :=
  match n with
  | O => ret tt
  | S n' =>
      pm <- index powerModes i ;;
      writeMessage SS_pin AD56X4_COMMAND_POWER_UPDOWN 0
        (to_word (Z.lor (Z.land 48 pm) (Z.land 15 channelMask))) ;;
      powerUpDown_for SS_pin powerModes n' (i + 1)
        (to_byte (Z.shiftl channelMask 1))
  end.

(** [void powerUpDown (int SS_pin, byte powerModes[])] *)
Definition powerUpDown_modes (SS_pin : Z) (powerModes : list Z) : M unit :=
  let channelMask := 1 in
  powerUpDown_for SS_pin powerModes 4 0 channelMask.

(** [void reset (int SS_pin, boolean fullReset)] *)
Definition reset (SS_pin : Z) (fullReset : bool) : M unit :=
  writeMessage SS_pin AD56X4_COMMAND_RESET 0 (to_word (of_bool fullReset)).

(** [void setInputMode (int SS_pin, byte channelMask)] *)
Definition setInputMode (SS_pin channelMask : Z) : M unit :=
  writeMessage SS_pin AD56X4_COMMAND_SET_LDAC 0 (to_word channelMask).

(** [void setInputMode (int SS_pin, boolean channels[])] *)
Definition setInputMode_array (SS_pin : Z) (channels : list bool) : M unit :=
  mask <- makeChannelMask_array channels ;;
  setInputMode SS_pin (to_byte mask).

(** [void setInputMode (int SS_pin, boolean channel_D, boolean channel_C,
                        boolean channel_B, boolean channel_A)] *)
Definition setInputMode_DCBA (SS_pin : Z)
    (channel_D channel_C channel_B channel_A : bool) : M unit :=
  setInputMode SS_pin
    (to_byte (makeChannelMask channel_D channel_C channel_B channel_A)).

(** [void useInternalReference (int SS_pin, boolean yesno)] *)
Definition useInternalReference (SS_pin : Z) (yesno : bool) : M unit :=
  writeMessage SS_pin AD56X4_COMMAND_REFERENCE_ONOFF 0
    (to_word (of_bool yesno)).

End AD56X4.

Import AD56X4.

(** ** The chip side: what the DAC sees on the bus *)

Module Wire.

(** The bytes clocked out while one slave select pin was held low. *)
Record frame := { ss_pin : Z; payload : list Z }.

(** The bus as the chips see it: the pin currently held low with the
    bytes received since it went low, and the frames completed so far. *)
Definition bus : Type := option (Z * list Z) * list frame.

Definition step (st : bus) (c : call) : bus :=
  let (sel, done) := st in
  match c with
  | digitalWrite p LOW => (Some (p, []), done)
  | digitalWrite p HIGH =>
      match sel with
      | Some (q, bs) =>
          if p =? q
          then (None, done ++ [{| ss_pin := q; payload := bs |}])
          else st
      | None => st
      end
  | SPI_transfer b =>
      match sel with
      | Some (q, bs) => (Some (q, bs ++ [b]), done)
      | None => st
      end
  | SPI_setDataMode _ | SPI_setBitOrder _ => st
  end.

Definition frames_of (log : list call) : list frame :=
  snd (fold_left step log (None, [])).


(** The frames a driver operation sends on an idle bus. *)
Definition sent {A} (m : M A) : option (list frame) :=
  option_map frames_of (calls m).

(** The fields of a frame, as laid out in the data sheet: two junk
    bits, three command bits, three address bits, then the data word
    most significant byte first. *)
Definition byte0 (f : frame) : Z := nth 0 (payload f) 0.
Definition byte1 (f : frame) : Z := nth 1 (payload f) 0.
Definition byte2 (f : frame) : Z := nth 2 (payload f) 0.

Definition junk_bits (f : frame) : Z := Z.shiftr (byte0 f) 6.
Definition command_bits (f : frame) : Z := Z.land (Z.shiftr (byte0 f) 3) 7.
Definition address_bits (f : frame) : Z := Z.land (byte0 f) 7.
Definition data_word (f : frame) : Z := Z.lor (Z.shiftl (byte1 f) 8) (byte2 f).

(** The command table ([C2 C1 C0]) of the header comment. *)
Inductive command :=
| Write_input_register
| Update_DAC_register
| Write_input_register_update_all
| Write_update_channel
| Power_updown
| Reset
| Set_LDAC
| Reference_onoff.

Definition command_code (c : command) : Z :=
  match c with
  | Write_input_register => 0
  | Update_DAC_register => 1
  | Write_input_register_update_all => 2
  | Write_update_channel => 3
  | Power_updown => 4
  | Reset => 5
  | Set_LDAC => 6
  | Reference_onoff => 7
  end.

Definition command_define (c : command) : Z :=
  match c with
  | Write_input_register => AD56X4_COMMAND_WRITE_INPUT_REGISTER
  | Update_DAC_register => AD56X4_COMMAND_UPDATE_DAC_REGISTER
  | Write_input_register_update_all =>
      AD56X4_COMMAND_WRITE_INPUT_REGISTER_UPDATE_ALL
  | Write_update_channel => AD56X4_COMMAND_WRITE_UPDATE_CHANNEL
  | Power_updown => AD56X4_COMMAND_POWER_UPDOWN
  | Reset => AD56X4_COMMAND_RESET
  | Set_LDAC => AD56X4_COMMAND_SET_LDAC
  | Reference_onoff => AD56X4_COMMAND_REFERENCE_ONOFF
  end.

(** The address table ([A2 A1 A0]). *)
Inductive channel := Ch_A | Ch_B | Ch_C | Ch_D | Ch_All.

Definition channel_code (a : channel) : Z :=
  match a with
  | Ch_A => 0 | Ch_B => 1 | Ch_C => 2 | Ch_D => 3 | Ch_All => 7
  end.

Definition channel_define (a : channel) : Z :=
  match a with
  | Ch_A => AD56X4_CHANNEL_A
  | Ch_B => AD56X4_CHANNEL_B
  | Ch_C => AD56X4_CHANNEL_C
  | Ch_D => AD56X4_CHANNEL_D
  | Ch_All => AD56X4_CHANNEL_ALL
  end.

(** The three set modes of [setChannel]. *)
Inductive set_mode := Input | Input_DAC | Input_DAC_all.

Definition set_mode_define (s : set_mode) : Z :=
  match s with
  | Input => AD56X4_SETMODE_INPUT
  | Input_DAC => AD56X4_SETMODE_INPUT_DAC
  | Input_DAC_all => AD56X4_SETMODE_INPUT_DAC_ALL
  end.

(** Each set mode is defined as one of the commands. *)
Definition set_mode_command (s : set_mode) : command :=
  match s with
  | Input => Write_input_register
  | Input_DAC => Write_update_channel
  | Input_DAC_all => Write_input_register_update_all
  end.

(** The power up-down table ([DB5 DB4]). *)
Inductive power_mode := Normal | Powerdown_1k | Powerdown_100k | Tristate.

Definition power_mode_code (p : power_mode) : Z :=
  match p with
  | Normal => 0 | Powerdown_1k => 1 | Powerdown_100k => 2 | Tristate => 3
  end.

Definition power_mode_define (p : power_mode) : Z :=
  match p with
  | Normal => AD56X4_POWERMODE_NORMAL
  | Powerdown_1k => AD56X4_POWERMODE_POWERDOWN_1K
  | Powerdown_100k => AD56X4_POWERMODE_POWERDOWN_100K
  | Tristate => AD56X4_POWERMODE_TRISTATE
  end.

(** A computation that returns [a] after adding, to whatever was
    logged before, calls that the chips read as the frames [fs]. *)
Definition emits {A} (m : M A) (a : A) (fs : list frame) : Prop :=
  exists l,
    (forall log, m log = Some (a, log ++ l)) /\
    (forall sel done, exists sel',
        fold_left step l (sel, done) = (sel', done ++ fs)).

(** The frame [writeMessage] puts on the bus, and its first byte. *)
Definition header (command address : Z) : Z :=
  to_byte (Z.lor (Z.land command 56) (Z.land address 7)).

Definition message (SS_pin command address data : Z) : frame :=
  {| ss_pin := SS_pin;
     payload := [header command address; highByte data; lowByte data] |}.

(** The two fields of the data word of a power up-down command. *)
Definition mode_field (data : Z) : Z := Z.land (Z.shiftr data 4) 3.
Definition mask_field (data : Z) : Z := Z.land data 15.

(** The data word [powerUpDown] builds from a mode and a channel mask. *)
Definition power_data (powerMode channelMask : Z) : Z :=
  to_word (Z.lor (Z.land 48 powerMode) (Z.land 15 channelMask)).

(** [n] runs of an operation in a row. *)
Fixpoint times (n : nat) (m : M unit) : M unit :=
  match n with
  | O => ret tt
  | S n' => m ;; times n' m
  end.

End Wire.

Import Wire.

(** ** Sketches: sequences of calls of the public operations *)

Module Sketch.

(** One call of a public member of [AD56X4Class], without its
    [SS_pin] argument. *)
Inductive request :=
| SetChannel (setMode channel value : Z)
| SetChannel_array (setMode : Z) (values : list Z)
| SetChannel_DCBA (setMode value_D value_C value_B value_A : Z)
| UpdateChannel (channel : Z)
| PowerUpDown_array (powerMode : Z) (channels : list bool)
| PowerUpDown_DCBA (powerMode : Z) (channel_D channel_C channel_B channel_A : bool)
| PowerUpDown_modes (powerModes : list Z)
| Reset_chip (fullReset : bool)
| SetInputMode_array (channels : list bool)
| SetInputMode_DCBA (channel_D channel_C channel_B channel_A : bool)
| UseInternalReference (yesno : bool).

Definition perform_request (SS_pin : Z) (r : request) : M unit :=
  match r with
  | SetChannel setMode channel value => setChannel SS_pin setMode channel value
  | SetChannel_array setMode values => setChannel_array SS_pin setMode values
  | SetChannel_DCBA setMode vD vC vB vA =>
      setChannel_DCBA SS_pin setMode vD vC vB vA
  | UpdateChannel channel => updateChannel SS_pin channel
  | PowerUpDown_array powerMode channels =>
      powerUpDown_array SS_pin powerMode channels
  | PowerUpDown_DCBA powerMode D C B A => powerUpDown_DCBA SS_pin powerMode D C B A
  | PowerUpDown_modes powerModes => powerUpDown_modes SS_pin powerModes
  | Reset_chip fullReset => reset SS_pin fullReset
  | SetInputMode_array channels => setInputMode_array SS_pin channels
  | SetInputMode_DCBA D C B A => setInputMode_DCBA SS_pin D C B A
  | UseInternalReference yesno => useInternalReference SS_pin yesno
  end.

(** The calls of a sketch, each with the pin of the chip it talks to,
    one after the other. *)
Fixpoint run (rs : list (Z * request)) : M unit :=
  match rs with
  | [] => ret tt
  | (SS_pin, r) :: rs' => perform_request SS_pin r ;; run rs'
  end.

(** The platform calls that carry one frame: SPI set to mode 1 and most
    significant bit first, the pin pulled low, the bytes, the pin
    released. *)
Definition transaction (f : frame) : list call :=
  [SPI_setDataMode SPI_MODE1; SPI_setBitOrder MSBFIRST;
   digitalWrite (ss_pin f) LOW]
  ++ map SPI_transfer (payload f)
  ++ [digitalWrite (ss_pin f) HIGH].

(** A frame the chip accepts: 24 bits, starting with the two junk bits
    at 0. *)
Definition well_formed (f : frame) : Prop :=
  length (payload f) = 3%nat /\ Forall is_byte (payload f) /\ junk_bits f = 0.

(** A computation that adds to any log the transactions of [fs], and
    nothing else. *)
Definition transacts (m : M unit) (fs : list frame) : Prop :=
  forall log, m log = Some (tt, log ++ concat (map transaction fs)).

(** A computation that either leaves defined behaviour whatever the
    log, or adds the transactions of well formed frames on the pins
    [pins]. *)
Definition framed (pins : list Z) (m : M unit) : Prop :=
  (forall log, m log = None)
  \/ exists fs,
      transacts m fs
      /\ Forall (fun f => In (ss_pin f) pins /\ well_formed f) fs.

(** Computations that do not touch the log. *)
Definition pure {A} (m : M A) : Prop :=
  (forall log, m log = None) \/ exists v, forall log, m log = Some (v, log).

End Sketch.

Import Sketch.

(** ** Some runs *)

Example reset_calls :
  calls (reset 10 true)
  = Some [SPI_setDataMode SPI_MODE1; SPI_setBitOrder MSBFIRST;
          digitalWrite 10 LOW;
          SPI_transfer 0x28; SPI_transfer 0x00; SPI_transfer 0x01;
          digitalWrite 10 HIGH].
Proof. reflexivity. Qed.

Example useInternalReference_off :
  sent (useInternalReference 10 false)
  = Some [{| ss_pin := 10; payload := [0x38; 0x00; 0x00] |}].
Proof. reflexivity. Qed.

Example setChannel_array_run :
  sent (setChannel_array 10 AD56X4_SETMODE_INPUT [0x1111; 0x2222; 0x3333; 0x4444])
  = Some [{| ss_pin := 10; payload := [0x03; 0x11; 0x11] |};
          {| ss_pin := 10; payload := [0x02; 0x22; 0x22] |};
          {| ss_pin := 10; payload := [0x01; 0x33; 0x33] |};
          {| ss_pin := 10; payload := [0x00; 0x44; 0x44] |}].
Proof. reflexivity. Qed.

Example setChannel_array_short :
  sent (setChannel_array 10 AD56X4_SETMODE_INPUT [1; 2; 3]) = None.
Proof. reflexivity. Qed.

Example powerUpDown_modes_run :
  sent (powerUpDown_modes 10 [AD56X4_POWERMODE_NORMAL; AD56X4_POWERMODE_POWERDOWN_1K;
                              AD56X4_POWERMODE_POWERDOWN_100K; AD56X4_POWERMODE_TRISTATE])
  = Some [{| ss_pin := 10; payload := [0x20; 0x00; 0x01] |};
          {| ss_pin := 10; payload := [0x20; 0x00; 0x12] |};
          {| ss_pin := 10; payload := [0x20; 0x00; 0x24] |};
          {| ss_pin := 10; payload := [0x20; 0x00; 0x38] |}].
Proof. reflexivity. Qed.

Example setInputMode_run :
  sent (setInputMode_DCBA 10 true false false true)
  = Some [{| ss_pin := 10; payload := [0x30; 0x00; 0x09] |}].
Proof. reflexivity. Qed.

Example hex_literals : (0x0ABC, 0x19, 0x28) = (2748, 25, 40).
Proof. reflexivity. Qed.

(** ** Integer conversions and bit fields *)

Section Bits.

Lemma to_byte_land x : to_byte x = Z.land x 255.
Proof. unfold to_byte. change 255 with (Z.ones 8). now rewrite Z.land_ones by lia. Qed.

Lemma to_word_land x : to_word x = Z.land x 65535.
Proof. unfold to_word. change 65535 with (Z.ones 16). now rewrite Z.land_ones by lia. Qed.

Lemma to_byte_id x : is_byte x -> to_byte x = x.
Proof. unfold is_byte, to_byte. intros. now apply Z.mod_small. Qed.

Lemma to_word_id x : is_word x -> to_word x = x.
Proof. unfold is_word, to_word. intros. now apply Z.mod_small. Qed.

Lemma to_byte_range x : is_byte (to_byte x).
Proof. unfold is_byte, to_byte. apply Z.mod_pos_bound. lia. Qed.

Lemma to_word_range x : is_word (to_word x).
Proof. unfold is_word, to_word. apply Z.mod_pos_bound. lia. Qed.

(** A value below [2^n] has no bit at or above [n]. *)
Lemma land_ones_small x n : 0 <= n -> 0 <= x < 2 ^ n -> Z.land x (Z.ones n) = x.
Proof. intros. rewrite Z.land_ones by lia. now apply Z.mod_small. Qed.

Lemma land_ones_range x n : 0 <= n -> 0 <= Z.land x (Z.ones n) < 2 ^ n.
Proof. intros. rewrite Z.land_ones by lia. apply Z.mod_pos_bound. lia. Qed.

Lemma highByte_word w : is_word w -> highByte w = Z.shiftr w 8.
Proof.
  unfold is_word, highByte. intros H. apply to_byte_id. unfold is_byte.
  rewrite Z.shiftr_div_pow2 by lia. change (2 ^ 8) with 256.
  split; [apply Z.div_pos; lia | apply Z.div_lt_upper_bound; lia].
Qed.

Lemma lowByte_land w : lowByte w = Z.land w 255.
Proof.
  unfold lowByte. apply to_byte_id. unfold is_byte.
  apply (land_ones_range w 8). lia.
Qed.

(** The data word read back from the two data bytes is the word sent. *)
Lemma high_low_word w :
  is_word w -> Z.lor (Z.shiftl (highByte w) 8) (lowByte w) = w.
Proof.
  intros H. rewrite highByte_word, lowByte_land by assumption.
  change 255 with (Z.ones 8).
  rewrite <- Z.ldiff_ones_r by lia.
  apply Z.lor_ldiff_and.
Qed.

End Bits.

(** ** Running the driver against the bus *)

Section Run.

Lemma emits_ret {A} (a : A) : emits (ret a) a [].
Proof.
  exists []. split.
  - intros log. unfold ret. now rewrite app_nil_r.
  - intros sel done. exists sel. simpl. now rewrite app_nil_r.
Qed.

Lemma emits_bind {A B} (m : M A) (k : A -> M B) a b fs1 fs2 :
  emits m a fs1 -> emits (k a) b fs2 -> emits (bind m k) b (fs1 ++ fs2).
Proof.
  intros (l1 & Hrun1 & Hbus1) (l2 & Hrun2 & Hbus2).
  exists (l1 ++ l2). split.
  - intros log. unfold bind. rewrite Hrun1, Hrun2. now rewrite app_assoc.
  - intros sel done. rewrite fold_left_app.
    destruct (Hbus1 sel done) as (sel1 & ->).
    destruct (Hbus2 sel1 (done ++ fs1)) as (sel2 & ->).
    exists sel2. now rewrite app_assoc.
Qed.

Lemma emits_index {A} (a : list A) (i : Z) (x : A) :
  0 <= i -> nth_error a (Z.to_nat i) = Some x -> emits (index a i) x [].
Proof.
  intros Hi H. unfold index.
  destruct (Z.ltb_spec i 0) as [Hneg|_]; [lia|].
  rewrite H. apply emits_ret.
Qed.

Lemma emits_read {A B} (a : list A) (i : Z) (x : A) (k : A -> M B) b fs :
  0 <= i -> nth_error a (Z.to_nat i) = Some x ->
  emits (k x) b fs -> emits (bind (index a i) k) b fs.
Proof.
  intros Hi H Hk. change fs with ([] ++ fs).
  eapply emits_bind; [apply emits_index|]; eassumption.
Qed.

Lemma emits_writeMessage SS_pin command address data :
  emits (writeMessage SS_pin command address data) tt
        [message SS_pin command address data].
Proof.
  eexists. split.
  - intros log. unfold writeMessage, bind, perform.
    repeat rewrite <- app_assoc. simpl. reflexivity.
  - intros sel done. exists None. destruct sel as [[q bs]|];
      simpl; now rewrite Z.eqb_refl.
Qed.

Lemma emits_then_writeMessage SS_pin command address data (k : M unit) fs :
  emits k tt fs ->
  emits (writeMessage SS_pin command address data ;; k) tt
        (message SS_pin command address data :: fs).
Proof.
  intros Hk. change (message SS_pin command address data :: fs)
    with ([message SS_pin command address data] ++ fs).
  eapply emits_bind; [apply emits_writeMessage | exact Hk].
Qed.

Lemma emits_sent {A} (m : M A) a fs : emits m a fs -> sent m = Some fs.
Proof.
  intros (l & Hrun & Hbus). unfold sent, calls, frames_of.
  rewrite Hrun. simpl. now destruct (Hbus None []) as (sel' & ->).
Qed.

(** An operation that emits frames never leaves defined behaviour,
    whatever was logged before it. *)
Lemma emits_defined {A} (m : M A) a fs log :
  emits m a fs -> exists log', m log = Some (a, log').
Proof. intros (l & Hrun & _). rewrite Hrun. eauto. Qed.

Lemma emits_times m fs n :
  emits m tt fs -> emits (times n m) tt (concat (repeat fs n)).
Proof.
  intros H. induction n as [|n IH]; simpl.
  - apply emits_ret.
  - eapply emits_bind; eassumption.
Qed.

End Run.

(** ** The fields of a message *)

Section Fields.

Variables command address : Z.

Lemma header_lor :
  header command address = Z.lor (Z.land command 56) (Z.land address 7).
Proof.
  unfold header. rewrite to_byte_land, Z.land_lor_distr_l.
  rewrite <- !Z.land_assoc.
  now change (Z.land 56 255) with 56; change (Z.land 7 255) with 7.
Qed.

Lemma header_junk : Z.shiftr (header command address) 6 = 0.
Proof.
  rewrite header_lor, Z.shiftr_lor, !Z.shiftr_land.
  change (Z.shiftr 56 6) with 0. change (Z.shiftr 7 6) with 0.
  now rewrite !Z.land_0_r.
Qed.

Lemma header_command :
  Z.land (Z.shiftr (header command address) 3) 7 = Z.land (Z.shiftr command 3) 7.
Proof.
  rewrite header_lor, Z.shiftr_lor, !Z.shiftr_land.
  change (Z.shiftr 56 3) with 7. change (Z.shiftr 7 3) with 0.
  rewrite Z.land_0_r, Z.lor_0_r, <- Z.land_assoc.
  now change (Z.land 7 7) with 7.
Qed.

Lemma header_address : Z.land (header command address) 7 = address mod 8.
Proof.
  rewrite header_lor, Z.land_lor_distr_l, <- !Z.land_assoc.
  change (Z.land 56 7) with 0. change (Z.land 7 7) with 7.
  rewrite Z.land_0_r, Z.lor_0_l.
  change 7 with (Z.ones 3). now rewrite Z.land_ones by lia.
Qed.

Lemma header_range : 0 <= header command address < 64.
Proof.
  assert (H : Z.land (header command address) 63 = header command address).
  { rewrite header_lor, Z.land_lor_distr_l, <- !Z.land_assoc.
    now change (Z.land 56 63) with 56; change (Z.land 7 63) with 7. }
  rewrite <- H. apply (land_ones_range (header command address) 6). lia.
Qed.

Variables SS_pin data : Z.

Lemma message_length : length (payload (message SS_pin command address data)) = 3%nat.
Proof. reflexivity. Qed.

Lemma message_junk : junk_bits (message SS_pin command address data) = 0.
Proof. apply header_junk. Qed.

Lemma message_command :
  command_bits (message SS_pin command address data) = Z.land (Z.shiftr command 3) 7.
Proof. apply header_command. Qed.

Lemma message_address :
  address_bits (message SS_pin command address data) = address mod 8.
Proof. apply header_address. Qed.

Lemma message_data :
  is_word data -> data_word (message SS_pin command address data) = data.
Proof. apply high_low_word. Qed.

End Fields.

(** ** The data word of a power up-down command *)

Section PowerData.

Variables powerMode channelMask : Z.

Lemma power_data_lor :
  power_data powerMode channelMask
    = Z.lor (Z.land powerMode 48) (Z.land channelMask 15).
Proof.
  unfold power_data.
  rewrite to_word_land, Z.land_lor_distr_l, (Z.land_comm 48), (Z.land_comm 15).
  rewrite <- !Z.land_assoc.
  now change (Z.land 48 65535) with 48; change (Z.land 15 65535) with 15.
Qed.

Lemma power_data_mask :
  mask_field (power_data powerMode channelMask) = Z.land channelMask 15.
Proof.
  unfold mask_field.
  rewrite power_data_lor, Z.land_lor_distr_l, <- !Z.land_assoc.
  change (Z.land 48 15) with 0. change (Z.land 15 15) with 15.
  now rewrite Z.land_0_r, Z.lor_0_l.
Qed.

Lemma power_data_mode :
  mode_field (power_data powerMode channelMask) = Z.land (Z.shiftr powerMode 4) 3.
Proof.
  unfold mode_field.
  rewrite power_data_lor, Z.shiftr_lor, !Z.shiftr_land.
  change (Z.shiftr 48 4) with 3. change (Z.shiftr 15 4) with 0.
  rewrite Z.land_0_r, Z.lor_0_r, <- Z.land_assoc.
  now change (Z.land 3 3) with 3.
Qed.

Lemma power_data_range : 0 <= power_data powerMode channelMask < 64.
Proof.
  assert (H : Z.land (power_data powerMode channelMask) 63
              = power_data powerMode channelMask).
  { rewrite power_data_lor, Z.land_lor_distr_l, <- !Z.land_assoc.
    now change (Z.land 48 63) with 48; change (Z.land 15 63) with 15. }
  rewrite <- H. apply (land_ones_range (power_data powerMode channelMask) 6). lia.
Qed.

Lemma power_data_high : Z.shiftr (power_data powerMode channelMask) 6 = 0.
Proof.
  rewrite power_data_lor, Z.shiftr_lor, !Z.shiftr_land.
  change (Z.shiftr 48 6) with 0. change (Z.shiftr 15 6) with 0.
  now rewrite !Z.land_0_r.
Qed.

Lemma power_data_word : is_word (power_data powerMode channelMask).
Proof. pose proof power_data_range. unfold is_word. lia. Qed.

End PowerData.

Lemma power_data_mode_code (p : power_mode) channelMask :
  mode_field (power_data (power_mode_define p) channelMask) = power_mode_code p.
Proof. rewrite power_data_mode. now destruct p. Qed.

Lemma makeChannelMask_range D C B A : 0 <= makeChannelMask D C B A < 16.
Proof. destruct D, C, B, A; vm_compute; split; congruence. Qed.

Lemma makeChannelMask_byte D C B A :
  to_byte (makeChannelMask D C B A) = makeChannelMask D C B A.
Proof. destruct D, C, B, A; reflexivity. Qed.

Lemma makeChannelMask_low D C B A :
  Z.land (makeChannelMask D C B A) 15 = makeChannelMask D C B A.
Proof. destruct D, C, B, A; reflexivity. Qed.

(** ** What each operation sends *)

Section Operations.

Variable SS_pin : Z.

Lemma valid_setMode_define (s : set_mode) : valid_setMode (set_mode_define s) = true.
Proof. now destruct s. Qed.

Lemma valid_setMode_false setMode :
  setMode <> AD56X4_SETMODE_INPUT ->
  setMode <> AD56X4_SETMODE_INPUT_DAC ->
  setMode <> AD56X4_SETMODE_INPUT_DAC_ALL ->
  valid_setMode setMode = false.
Proof.
  intros H1 H2 H3. unfold valid_setMode.
  apply Z.eqb_neq in H1, H2, H3. now rewrite H1, H2, H3.
Qed.

Lemma emits_setChannel setMode channel value :
  valid_setMode setMode = true ->
  emits (setChannel SS_pin setMode channel value) tt
        [message SS_pin setMode channel value].
Proof. intros H. unfold setChannel. rewrite H. apply emits_writeMessage. Qed.

Lemma emits_setChannel_array setMode vD vC vB vA :
  valid_setMode setMode = true ->
  emits (setChannel_array SS_pin setMode [vD; vC; vB; vA]) tt
        [message SS_pin setMode AD56X4_CHANNEL_D vD;
         message SS_pin setMode AD56X4_CHANNEL_C vC;
         message SS_pin setMode AD56X4_CHANNEL_B vB;
         message SS_pin setMode AD56X4_CHANNEL_A vA].
Proof.
  intros H. unfold setChannel_array. rewrite H. cbv [setChannel_for].
  repeat (eapply emits_read; [lia | reflexivity |];
          apply emits_then_writeMessage).
  apply emits_ret.
Qed.

Lemma emits_updateChannel channel :
  emits (updateChannel SS_pin channel) tt
        [message SS_pin AD56X4_COMMAND_UPDATE_DAC_REGISTER channel 0].
Proof. unfold updateChannel. apply emits_writeMessage. Qed.

Lemma emits_makeChannelMask_array D C B A :
  emits (makeChannelMask_array [D; C; B; A]) (makeChannelMask D C B A) [].
Proof.
  unfold makeChannelMask_array.
  repeat (eapply emits_read; [lia | reflexivity |]).
  apply emits_ret.
Qed.

Lemma emits_powerUpDown powerMode channelMask :
  emits (powerUpDown SS_pin powerMode channelMask) tt
        [message SS_pin AD56X4_COMMAND_POWER_UPDOWN 0
                 (power_data powerMode channelMask)].
Proof. unfold powerUpDown, power_data. apply emits_writeMessage. Qed.

Lemma emits_powerUpDown_DCBA powerMode D C B A :
  emits (powerUpDown_DCBA SS_pin powerMode D C B A) tt
        [message SS_pin AD56X4_COMMAND_POWER_UPDOWN 0
                 (power_data powerMode (makeChannelMask D C B A))].
Proof.
  unfold powerUpDown_DCBA. rewrite makeChannelMask_byte.
  apply emits_powerUpDown.
Qed.

Lemma emits_powerUpDown_array powerMode D C B A :
  emits (powerUpDown_array SS_pin powerMode [D; C; B; A]) tt
        [message SS_pin AD56X4_COMMAND_POWER_UPDOWN 0
                 (power_data powerMode (makeChannelMask D C B A))].
Proof.
  unfold powerUpDown_array.
  match goal with |- emits _ _ ?fs => change fs with ([] ++ fs) end.
  eapply emits_bind; [apply emits_makeChannelMask_array|].
  rewrite makeChannelMask_byte. apply emits_powerUpDown.
Qed.

Lemma emits_powerUpDown_modes m0 m1 m2 m3 :
  emits (powerUpDown_modes SS_pin [m0; m1; m2; m3]) tt
        [message SS_pin AD56X4_COMMAND_POWER_UPDOWN 0 (power_data m0 1);
         message SS_pin AD56X4_COMMAND_POWER_UPDOWN 0 (power_data m1 2);
         message SS_pin AD56X4_COMMAND_POWER_UPDOWN 0 (power_data m2 4);
         message SS_pin AD56X4_COMMAND_POWER_UPDOWN 0 (power_data m3 8)].
Proof.
  unfold powerUpDown_modes. cbv [powerUpDown_for].
  repeat (eapply emits_read; [lia | reflexivity |];
          apply emits_then_writeMessage).
  apply emits_ret.
Qed.

Lemma emits_reset fullReset :
  emits (reset SS_pin fullReset) tt
        [message SS_pin AD56X4_COMMAND_RESET 0 (of_bool fullReset)].
Proof.
  unfold reset. rewrite to_word_id by (destruct fullReset; unfold is_word; simpl; lia).
  apply emits_writeMessage.
Qed.

Lemma emits_setInputMode channelMask :
  emits (setInputMode SS_pin channelMask) tt
        [message SS_pin AD56X4_COMMAND_SET_LDAC 0 (to_word channelMask)].
Proof. unfold setInputMode. apply emits_writeMessage. Qed.

Lemma emits_setInputMode_DCBA D C B A :
  emits (setInputMode_DCBA SS_pin D C B A) tt
        [message SS_pin AD56X4_COMMAND_SET_LDAC 0 (makeChannelMask D C B A)].
Proof.
  unfold setInputMode_DCBA. rewrite makeChannelMask_byte.
  replace (makeChannelMask D C B A) with (to_word (makeChannelMask D C B A)) at 2
    by (now destruct D, C, B, A).
  apply emits_setInputMode.
Qed.

Lemma emits_setInputMode_array D C B A :
  emits (setInputMode_array SS_pin [D; C; B; A]) tt
        [message SS_pin AD56X4_COMMAND_SET_LDAC 0 (makeChannelMask D C B A)].
Proof.
  unfold setInputMode_array.
  match goal with |- emits _ _ ?fs => change fs with ([] ++ fs) end.
  eapply emits_bind; [apply emits_makeChannelMask_array|].
  fold (setInputMode_DCBA SS_pin D C B A). apply emits_setInputMode_DCBA.
Qed.

Lemma emits_useInternalReference yesno :
  emits (useInternalReference SS_pin yesno) tt
        [message SS_pin AD56X4_COMMAND_REFERENCE_ONOFF 0 (of_bool yesno)].
Proof.
  unfold useInternalReference.
  rewrite to_word_id by (destruct yesno; unfold is_word; simpl; lia).
  apply emits_writeMessage.
Qed.

End Operations.

(** ** The frame encoder *)

(** C1. For each of the 8 commands, each of the addresses A, B, C, D and
    ALL, and every 16 bit data word, [writeMessage] sends exactly one
    frame of 3 bytes on the given slave select pin; the top two bits of
    its first byte are 0, bits 5:3 are the 3 bit code of the command,
    bits 2:0 the 3 bit code of the address, the second byte is
    [data >> 8] and the third is [data & 0xFF]. *)
Theorem writeMessage_frame_layout (SS_pin : Z) (c : command) (a : channel) (data : Z) :
  is_word data ->
  exists f,
    sent (writeMessage SS_pin (command_define c) (channel_define a) data) = Some [f]
    /\ ss_pin f = SS_pin
    /\ length (payload f) = 3%nat
    /\ junk_bits f = 0
    /\ command_bits f = command_code c
    /\ address_bits f = channel_code a
    /\ byte1 f = Z.shiftr data 8
    /\ byte2 f = Z.land data 255.
Proof.
  intros Hdata.
  exists (message SS_pin (command_define c) (channel_define a) data).
  split; [apply (emits_sent _ tt), emits_writeMessage|].
  split; [reflexivity|]. split; [reflexivity|].
  split; [apply message_junk|].
  split; [rewrite message_command; now destruct c|].
  split; [rewrite message_address; now destruct a|].
  split; [now apply highByte_word | apply lowByte_land].
Qed.

Lemma writeMessage_frame_layout_witness :
  exists f,
    sent (writeMessage 10 (command_define Write_update_channel)
                       (channel_define Ch_C) 43981) = Some [f]
    /\ ss_pin f = 10
    /\ length (payload f) = 3%nat
    /\ junk_bits f = 0
    /\ command_bits f = command_code Write_update_channel
    /\ address_bits f = channel_code Ch_C
    /\ byte1 f = Z.shiftr 43981 8
    /\ byte2 f = Z.land 43981 255.
Proof.
  apply (writeMessage_frame_layout 10 Write_update_channel Ch_C 43981).
  unfold is_word. lia.
Defined.

(** ** Channel masks *)

(** C2. For all booleans D, C, B, A, [makeChannelMask] returns
    8 D + 4 C + 2 B + A (a boolean read as 0 or 1); two calls that return
    the same mask were given the same four booleans; and the array form
    on the 4 element array [D, C, B, A] returns the same mask. *)
Theorem makeChannelMask_value_injective (D C B A : bool) :
  makeChannelMask D C B A
    = 8 * of_bool D + 4 * of_bool C + 2 * of_bool B + of_bool A
  /\ (forall D' C' B' A',
        makeChannelMask D C B A = makeChannelMask D' C' B' A' ->
        (D, C, B, A) = (D', C', B', A'))
  /\ (forall log,
        makeChannelMask_array [D; C; B; A] log
          = Some (makeChannelMask D C B A, log)).
Proof.
  split; [now destruct D, C, B, A|]. split; [|reflexivity].
  intros D' C' B' A'.
  destruct D, C, B, A, D', C', B', A'; vm_compute; congruence.
Qed.

Lemma makeChannelMask_value_injective_witness :
  makeChannelMask true false true true = 11
  /\ (true, false, true, true) = (true, false, true, true)
  /\ makeChannelMask_array [true; false; true; true] [] = Some (11, []).
Proof.
  destruct (makeChannelMask_value_injective true false true true)
    as (Hval & Hinj & Harr).
  split; [exact Hval|]. split; [|exact (Harr [])].
  apply (Hinj true false true true). reflexivity.
Defined.

(** ** Setting channels *)

(** C8. For each of the three set modes, each of the addresses A, B, C,
    D and ALL, and every 16 bit value, the single channel form of
    [setChannel] sends exactly one frame, whose data word is the value
    (and whose command and address are the ones asked for).  In
    particular set mode INPUT_DAC, channel B and value 0x0ABC give the
    one frame 0x19 0x0A 0xBC. *)
Theorem setChannel_single_frame (SS_pin : Z) (s : set_mode) (a : channel) (value : Z) :
  is_word value ->
  (exists f,
      sent (setChannel SS_pin (set_mode_define s) (channel_define a) value) = Some [f]
      /\ length (payload f) = 3%nat
      /\ command_bits f = command_code (set_mode_command s)
      /\ address_bits f = channel_code a
      /\ data_word f = value)
  /\ sent (setChannel SS_pin AD56X4_SETMODE_INPUT_DAC AD56X4_CHANNEL_B 0x0ABC)
     = Some [{| ss_pin := SS_pin; payload := [0x19; 0x0A; 0xBC] |}].
Proof.
  intros Hvalue. split.
  - exists (message SS_pin (set_mode_define s) (channel_define a) value).
    split; [apply (emits_sent _ tt), emits_setChannel, valid_setMode_define|].
    split; [reflexivity|].
    split; [rewrite message_command; now destruct s|].
    split; [rewrite message_address; now destruct a|].
    now apply message_data.
  - now rewrite (emits_sent _ tt _
      (emits_setChannel SS_pin AD56X4_SETMODE_INPUT_DAC AD56X4_CHANNEL_B 0x0ABC
                        eq_refl)).
Qed.

Lemma setChannel_single_frame_witness :
  (exists f,
      sent (setChannel 10 (set_mode_define Input_DAC) (channel_define Ch_B) 2748)
        = Some [f]
      /\ length (payload f) = 3%nat
      /\ command_bits f = command_code (set_mode_command Input_DAC)
      /\ address_bits f = channel_code Ch_B
      /\ data_word f = 2748)
  /\ sent (setChannel 10 AD56X4_SETMODE_INPUT_DAC AD56X4_CHANNEL_B 0x0ABC)
     = Some [{| ss_pin := 10; payload := [0x19; 0x0A; 0xBC] |}].
Proof.
  apply (setChannel_single_frame 10 Input_DAC Ch_B 2748).
  unfold is_word. lia.
Defined.

(** C3. For each of the three set modes and any four 16 bit values,
    [setChannel] on the array [value_D, value_C, value_B, value_A] sends
    exactly 4 frames.  Their addresses are D, C, B, A in that order, so
    each single channel is addressed exactly once, and the data word of
    each frame is the value given for that channel (array index 0 for D
    down to index 3 for A).  The form with the four arguments value_D,
    value_C, value_B, value_A behaves as the array form on every log and
    sends the same frames. *)
Theorem setChannel_four_values (SS_pin : Z) (s : set_mode) (vD vC vB vA : Z) :
  is_word vD -> is_word vC -> is_word vB -> is_word vA ->
  exists fs,
    sent (setChannel_array SS_pin (set_mode_define s) [vD; vC; vB; vA]) = Some fs
    /\ length fs = 4%nat
    /\ map ss_pin fs = repeat SS_pin 4
    /\ map command_bits fs = repeat (command_code (set_mode_command s)) 4
    /\ map address_bits fs = map channel_code [Ch_D; Ch_C; Ch_B; Ch_A]
    /\ NoDup (map address_bits fs)
    /\ map data_word fs = [vD; vC; vB; vA]
    /\ (forall log,
          setChannel_DCBA SS_pin (set_mode_define s) vD vC vB vA log
            = setChannel_array SS_pin (set_mode_define s) [vD; vC; vB; vA] log)
    /\ sent (setChannel_DCBA SS_pin (set_mode_define s) vD vC vB vA) = Some fs.
Proof.
  intros HD HC HB HA.
  pose proof (emits_sent _ tt _
    (emits_setChannel_array SS_pin _ vD vC vB vA (valid_setMode_define s))) as Hsent.
  eexists. split; [exact Hsent|].
  split; [reflexivity|]. split; [reflexivity|].
  split; [simpl; rewrite !message_command; now destruct s|].
  split; [simpl; now rewrite !message_address|].
  split.
  { simpl. rewrite !message_address.
    repeat constructor; simpl; intuition discriminate. }
  split; [simpl; now rewrite !message_data by assumption|].
  split; [reflexivity | exact Hsent].
Qed.

Lemma setChannel_four_values_witness :
  exists fs,
    sent (setChannel_array 10 (set_mode_define Input) [4; 3; 2; 1]) = Some fs
    /\ length fs = 4%nat
    /\ map ss_pin fs = repeat 10 4
    /\ map command_bits fs = repeat (command_code (set_mode_command Input)) 4
    /\ map address_bits fs = map channel_code [Ch_D; Ch_C; Ch_B; Ch_A]
    /\ NoDup (map address_bits fs)
    /\ map data_word fs = [4; 3; 2; 1]
    /\ (forall log,
          setChannel_DCBA 10 (set_mode_define Input) 4 3 2 1 log
            = setChannel_array 10 (set_mode_define Input) [4; 3; 2; 1] log)
    /\ sent (setChannel_DCBA 10 (set_mode_define Input) 4 3 2 1) = Some fs.
Proof.
  apply (setChannel_four_values 10 Input 4 3 2 1); unfold is_word; lia.
Defined.

(** C4. For a set mode that is none of the three recognised codes, each
    form of [setChannel] returns normally without a single call into the
    platform: the log is left as it was, no frame is sent, and any number
    of calls in a row leaves the log as zero calls do. *)
Theorem setChannel_invalid_setMode_noop
    (SS_pin setMode channel value vD vC vB vA : Z) (values : list Z)
    (n : nat) (log : list call) :
  setMode <> AD56X4_SETMODE_INPUT ->
  setMode <> AD56X4_SETMODE_INPUT_DAC ->
  setMode <> AD56X4_SETMODE_INPUT_DAC_ALL ->
  (setChannel SS_pin setMode channel value log = Some (tt, log)
   /\ setChannel_array SS_pin setMode values log = Some (tt, log)
   /\ setChannel_DCBA SS_pin setMode vD vC vB vA log = Some (tt, log))
  /\ (sent (setChannel SS_pin setMode channel value) = Some []
      /\ sent (setChannel_array SS_pin setMode values) = Some []
      /\ sent (setChannel_DCBA SS_pin setMode vD vC vB vA) = Some [])
  /\ (times n (setChannel SS_pin setMode channel value) log
         = times 0 (setChannel SS_pin setMode channel value) log
      /\ times n (setChannel_array SS_pin setMode values) log
         = times 0 (setChannel_array SS_pin setMode values) log
      /\ times n (setChannel_DCBA SS_pin setMode vD vC vB vA) log
         = times 0 (setChannel_DCBA SS_pin setMode vD vC vB vA) log).
Proof.
  intros H1 H2 H3. pose proof (valid_setMode_false _ H1 H2 H3) as Hv.
  unfold setChannel_DCBA, setChannel_array, setChannel. rewrite Hv.
  repeat split; try reflexivity;
    induction n as [|n IH]; simpl; try reflexivity; exact IH.
Qed.

Lemma setChannel_invalid_setMode_noop_witness :
  (setChannel 10 8 1 500 [] = Some (tt, [])
   /\ setChannel_array 10 8 [4; 3; 2; 1] [] = Some (tt, [])
   /\ setChannel_DCBA 10 8 4 3 2 1 [] = Some (tt, []))
  /\ (sent (setChannel 10 8 1 500) = Some []
      /\ sent (setChannel_array 10 8 [4; 3; 2; 1]) = Some []
      /\ sent (setChannel_DCBA 10 8 4 3 2 1) = Some [])
  /\ (times 2 (setChannel 10 8 1 500) []
         = times 0 (setChannel 10 8 1 500) []
      /\ times 2 (setChannel_array 10 8 [4; 3; 2; 1]) []
         = times 0 (setChannel_array 10 8 [4; 3; 2; 1]) []
      /\ times 2 (setChannel_DCBA 10 8 4 3 2 1) []
         = times 0 (setChannel_DCBA 10 8 4 3 2 1) []).
Proof.
  apply (setChannel_invalid_setMode_noop 10 8 1 500 4 3 2 1 [4; 3; 2; 1] 2 []);
    unfold AD56X4_SETMODE_INPUT, AD56X4_SETMODE_INPUT_DAC,
      AD56X4_SETMODE_INPUT_DAC_ALL, AD56X4_COMMAND_WRITE_INPUT_REGISTER,
      AD56X4_COMMAND_WRITE_UPDATE_CHANNEL,
      AD56X4_COMMAND_WRITE_INPUT_REGISTER_UPDATE_ALL; lia.
Defined.

(** ** Power modes *)

(** C6. For every power mode byte and every channel mask, the mask form
    of [powerUpDown] sends exactly one frame, with the power up-down
    command, the address code of channel A (0) and the data word
    [(powerMode & 0x30) | (channelMask & 0x0F)]; the form with four
    booleans and the form with a 4 element boolean array send that same
    one frame for the mask [makeChannelMask] gives for their booleans. *)
Theorem powerUpDown_single_frame (SS_pin powerMode channelMask : Z) (D C B A : bool) :
  (exists f,
      sent (powerUpDown SS_pin powerMode channelMask) = Some [f]
      /\ length (payload f) = 3%nat
      /\ command_bits f = command_code Power_updown
      /\ address_bits f = channel_code Ch_A
      /\ data_word f = Z.lor (Z.land powerMode 48) (Z.land channelMask 15))
  /\ sent (powerUpDown_DCBA SS_pin powerMode D C B A)
     = sent (powerUpDown SS_pin powerMode (makeChannelMask D C B A))
  /\ sent (powerUpDown_array SS_pin powerMode [D; C; B; A])
     = sent (powerUpDown SS_pin powerMode (makeChannelMask D C B A)).
Proof.
  split.
  - eexists. split; [apply (emits_sent _ tt), emits_powerUpDown|].
    split; [reflexivity|].
    split; [now rewrite message_command|].
    split; [now rewrite message_address|].
    rewrite message_data by apply power_data_word. apply power_data_lor.
  - rewrite (emits_sent _ tt _ (emits_powerUpDown_DCBA SS_pin powerMode D C B A)).
    rewrite (emits_sent _ tt _ (emits_powerUpDown_array SS_pin powerMode D C B A)).
    now rewrite (emits_sent _ tt _ (emits_powerUpDown SS_pin powerMode _)).
Qed.

(** C5. For every 4 element array of power modes, the array-of-modes
    form of [powerUpDown] sends exactly 4 frames, each with the power
    up-down command; the channel mask fields (data bits 3:0) of the
    frames are 0001, 0010, 0100, 1000 in that order, and the mode field
    (data bits 5:4) of each frame is bits 5:4 of the array entry at the
    same position. *)
Theorem powerUpDown_modes_frames (SS_pin m0 m1 m2 m3 : Z) :
  exists fs,
    sent (powerUpDown_modes SS_pin [m0; m1; m2; m3]) = Some fs
    /\ length fs = 4%nat
    /\ map command_bits fs = repeat (command_code Power_updown) 4
    /\ map (fun f => mask_field (data_word f)) fs = [1; 2; 4; 8]
    /\ map (fun f => mode_field (data_word f)) fs
       = map (fun m => Z.land (Z.shiftr m 4) 3) [m0; m1; m2; m3]
    /\ Forall (fun f => Z.shiftr (data_word f) 6 = 0) fs.
Proof.
  eexists.
  split; [apply (emits_sent _ tt), emits_powerUpDown_modes|].
  split; [reflexivity|].
  split; [simpl; now rewrite !message_command|].
  simpl. rewrite !message_data by apply power_data_word.
  split; [now rewrite !power_data_mask|].
  split; [now rewrite !power_data_mode|].
  repeat (apply Forall_cons;
          [cbv beta; rewrite message_data by apply power_data_word;
           apply power_data_high|]).
  apply Forall_nil.
Qed.

(** ** Reset *)

(** C7. For either value of [fullReset], [reset] sends exactly one frame,
    with the reset command and the data word 1 for a full reset and 0
    otherwise; a full reset is the one frame 0x28 0x00 0x01. *)
Theorem reset_single_frame (SS_pin : Z) (fullReset : bool) :
  (exists f,
      sent (reset SS_pin fullReset) = Some [f]
      /\ length (payload f) = 3%nat
      /\ command_bits f = command_code Reset
      /\ data_word f = if fullReset then 1 else 0)
  /\ sent (reset SS_pin true)
     = Some [{| ss_pin := SS_pin; payload := [0x28; 0x00; 0x01] |}].
Proof.
  split.
  - eexists. split; [apply (emits_sent _ tt), emits_reset|].
    split; [reflexivity|].
    split; [now rewrite message_command|].
    rewrite message_data; [reflexivity|].
    destruct fullReset; unfold is_word; simpl; lia.
  - now rewrite (emits_sent _ tt _ (emits_reset SS_pin true)).
Qed.

(** ** Channel masks on the wire *)

(** C9. In the forms of [powerUpDown] and [setInputMode] that take four
    booleans or a 4 element boolean array, the channel mask that goes
    into the data word has no bit set outside the low 4: for
    [setInputMode] the whole data word is the mask and is below 16; for
    [powerUpDown] the data word is below 64, its bits 3:0 are the mask
    and what is left above them is bits 5:4 of the power mode. *)
Theorem boolean_forms_mask_in_low_bits (SS_pin powerMode : Z) (D C B A : bool) :
  0 <= makeChannelMask D C B A < 16
  /\ (exists f,
        sent (setInputMode_DCBA SS_pin D C B A) = Some [f]
        /\ sent (setInputMode_array SS_pin [D; C; B; A]) = Some [f]
        /\ data_word f = makeChannelMask D C B A
        /\ 0 <= data_word f < 16)
  /\ (exists f,
        sent (powerUpDown_DCBA SS_pin powerMode D C B A) = Some [f]
        /\ sent (powerUpDown_array SS_pin powerMode [D; C; B; A]) = Some [f]
        /\ 0 <= data_word f < 64
        /\ mask_field (data_word f) = makeChannelMask D C B A
        /\ data_word f = Z.lor (Z.land powerMode 48) (makeChannelMask D C B A)).
Proof.
  pose proof (makeChannelMask_range D C B A) as Hmask.
  split; [exact Hmask|]. split.
  - eexists.
    split; [apply (emits_sent _ tt), emits_setInputMode_DCBA|].
    split; [apply (emits_sent _ tt), emits_setInputMode_array|].
    rewrite message_data by (unfold is_word; lia). now split.
  - eexists.
    split; [apply (emits_sent _ tt), emits_powerUpDown_DCBA|].
    split; [apply (emits_sent _ tt), emits_powerUpDown_array|].
    rewrite message_data by apply power_data_word.
    split; [apply power_data_range|].
    split; [rewrite power_data_mask|rewrite power_data_lor];
      now rewrite makeChannelMask_low.
Qed.

(** ** Codes outside the tables *)

(** C10. Apart from the set mode test of [setChannel], no public
    operation checks a numeric code.  For every channel byte, the address
    codes 4, 5 and 6 that the chip leaves undefined among them,
    [updateChannel] and the single channel [setChannel] (with one of the
    three set modes) return normally on every log and send exactly one
    frame whose address bits are the channel modulo 8.  For every power
    mode byte, one of the four mode constants or not, every form of
    [powerUpDown] (mask, four booleans, boolean array, array of modes)
    returns normally and sends its frames, one or four, whose data words
    keep bits 5:4 of the byte and drop the rest of it.  The operations
    left, the four value forms of [setChannel] with one of the three set
    modes, [reset], [setInputMode] and [useInternalReference], return
    normally on every log and send their four frames, or their one. *)
Theorem codes_are_masked_not_checked
    (SS_pin channel value powerMode channelMask : Z) (s : set_mode)
    (D C B A : bool) (m0 m1 m2 m3 vD vC vB vA : Z) (fullReset yesno : bool) :
  ((forall log, exists log', updateChannel SS_pin channel log = Some (tt, log'))
   /\ exists f,
       sent (updateChannel SS_pin channel) = Some [f]
       /\ command_bits f = command_code Update_DAC_register
       /\ address_bits f = channel mod 8)
  /\ ((forall log, exists log',
          setChannel SS_pin (set_mode_define s) channel value log = Some (tt, log'))
      /\ exists f,
          sent (setChannel SS_pin (set_mode_define s) channel value) = Some [f]
          /\ command_bits f = command_code (set_mode_command s)
          /\ address_bits f = channel mod 8)
  /\ map (fun ch => option_map (map address_bits) (sent (updateChannel SS_pin ch)))
         [4; 5; 6]
     = [Some [4]; Some [5]; Some [6]]
  /\ ((forall log, exists log',
          powerUpDown SS_pin powerMode channelMask log = Some (tt, log'))
      /\ exists f,
          sent (powerUpDown SS_pin powerMode channelMask) = Some [f]
          /\ command_bits f = command_code Power_updown
          /\ mode_field (data_word f) = Z.land (Z.shiftr powerMode 4) 3
          /\ data_word f = Z.lor (Z.land powerMode 48) (Z.land channelMask 15))
  /\ ((forall log, exists log',
          powerUpDown_DCBA SS_pin powerMode D C B A log = Some (tt, log'))
      /\ exists f,
          sent (powerUpDown_DCBA SS_pin powerMode D C B A) = Some [f]
          /\ mode_field (data_word f) = Z.land (Z.shiftr powerMode 4) 3
          /\ data_word f
             = Z.lor (Z.land powerMode 48) (makeChannelMask D C B A))
  /\ ((forall log, exists log',
          powerUpDown_array SS_pin powerMode [D; C; B; A] log = Some (tt, log'))
      /\ exists f,
          sent (powerUpDown_array SS_pin powerMode [D; C; B; A]) = Some [f]
          /\ command_bits f = command_code Power_updown
          /\ mode_field (data_word f) = Z.land (Z.shiftr powerMode 4) 3
          /\ data_word f
             = Z.lor (Z.land powerMode 48) (makeChannelMask D C B A))
  /\ ((forall log, exists log',
          powerUpDown_modes SS_pin [m0; m1; m2; m3] log = Some (tt, log'))
      /\ exists fs,
          sent (powerUpDown_modes SS_pin [m0; m1; m2; m3]) = Some fs
          /\ map command_bits fs = repeat (command_code Power_updown) 4
          /\ map (fun f => mode_field (data_word f)) fs
             = map (fun m => Z.land (Z.shiftr m 4) 3) [m0; m1; m2; m3]
          /\ map data_word fs
             = [Z.lor (Z.land m0 48) 1; Z.lor (Z.land m1 48) 2;
                Z.lor (Z.land m2 48) 4; Z.lor (Z.land m3 48) 8])
  /\ ((forall log, exists log',
          setChannel_array SS_pin (set_mode_define s) [vD; vC; vB; vA] log
          = Some (tt, log'))
      /\ (forall log, exists log',
             setChannel_DCBA SS_pin (set_mode_define s) vD vC vB vA log
             = Some (tt, log'))
      /\ exists fs,
          sent (setChannel_array SS_pin (set_mode_define s) [vD; vC; vB; vA])
          = Some fs
          /\ sent (setChannel_DCBA SS_pin (set_mode_define s) vD vC vB vA)
             = Some fs
          /\ map command_bits fs = repeat (command_code (set_mode_command s)) 4
          /\ map address_bits fs = map channel_code [Ch_D; Ch_C; Ch_B; Ch_A])
  /\ ((forall log, exists log', reset SS_pin fullReset log = Some (tt, log'))
      /\ exists f,
          sent (reset SS_pin fullReset) = Some [f]
          /\ command_bits f = command_code Reset)
  /\ ((forall log, exists log',
          setInputMode_DCBA SS_pin D C B A log = Some (tt, log'))
      /\ (forall log, exists log',
             setInputMode_array SS_pin [D; C; B; A] log = Some (tt, log'))
      /\ exists f,
          sent (setInputMode_DCBA SS_pin D C B A) = Some [f]
          /\ sent (setInputMode_array SS_pin [D; C; B; A]) = Some [f]
          /\ command_bits f = command_code Set_LDAC)
  /\ ((forall log, exists log',
          useInternalReference SS_pin yesno log = Some (tt, log'))
      /\ exists f,
          sent (useInternalReference SS_pin yesno) = Some [f]
          /\ command_bits f = command_code Reference_onoff).
Proof.
  pose proof (emits_updateChannel SS_pin channel) as Hup.
  pose proof (emits_setChannel SS_pin _ channel value (valid_setMode_define s))
    as Hset.
  pose proof (emits_powerUpDown SS_pin powerMode channelMask) as Hpow.
  pose proof (emits_powerUpDown_DCBA SS_pin powerMode D C B A) as Hbool.
  pose proof (emits_powerUpDown_array SS_pin powerMode D C B A) as Harr.
  pose proof (emits_powerUpDown_modes SS_pin m0 m1 m2 m3) as Hmodes.
  pose proof (emits_setChannel_array SS_pin _ vD vC vB vA (valid_setMode_define s))
    as Hfour.
  pose proof (emits_reset SS_pin fullReset) as Hreset.
  pose proof (emits_setInputMode_DCBA SS_pin D C B A) as Hldac.
  pose proof (emits_setInputMode_array SS_pin D C B A) as Hldac_arr.
  pose proof (emits_useInternalReference SS_pin yesno) as Href.
  repeat match goal with
         | |- (forall log, exists log', setChannel_DCBA _ _ _ _ _ _ log = _) /\ _ =>
             split; [intros log; unfold setChannel_DCBA;
                     eapply emits_defined; exact Hfour|]
         | |- (forall log, exists log', ?m log = _) /\ _ =>
             split; [intros log; eapply emits_defined; eassumption|]
         | |- _ /\ _ => split
         end.
  - eexists. split; [exact (emits_sent _ _ _ Hup)|].
    split; [now rewrite message_command | apply message_address].
  - eexists. split; [exact (emits_sent _ _ _ Hset)|].
    split; [rewrite message_command; now destruct s | apply message_address].
  - unfold map at 1.
    now rewrite !(emits_sent _ tt _ (emits_updateChannel SS_pin _)).
  - eexists. split; [exact (emits_sent _ _ _ Hpow)|].
    rewrite message_data by apply power_data_word.
    split; [now rewrite message_command|].
    split; [apply power_data_mode | apply power_data_lor].
  - eexists. split; [exact (emits_sent _ _ _ Hbool)|].
    rewrite message_data by apply power_data_word.
    split; [apply power_data_mode|].
    rewrite power_data_lor. now rewrite makeChannelMask_low.
  - eexists. split; [exact (emits_sent _ _ _ Harr)|].
    rewrite message_data by apply power_data_word.
    split; [now rewrite message_command|].
    split; [apply power_data_mode|].
    rewrite power_data_lor. now rewrite makeChannelMask_low.
  - eexists. split; [exact (emits_sent _ _ _ Hmodes)|].
    split; [cbn [map]; now rewrite !message_command|].
    cbn [map]. rewrite !message_data by apply power_data_word.
    split; [now rewrite !power_data_mode|].
    now rewrite !power_data_lor.
  - eexists. split; [exact (emits_sent _ _ _ Hfour)|].
    split; [exact (emits_sent _ _ _ Hfour)|].
    split; [cbn [map]; rewrite !message_command; now destruct s|].
    cbn [map]. now rewrite !message_address.
  - eexists. split; [exact (emits_sent _ _ _ Hreset)|].
    now rewrite message_command.
  - eexists. split; [exact (emits_sent _ _ _ Hldac)|].
    split; [exact (emits_sent _ _ _ Hldac_arr)|].
    now rewrite message_command.
  - eexists. split; [exact (emits_sent _ _ _ Href)|].
    now rewrite message_command.
Qed.

(** ** Transactions on the bus *)

Section Transactions.

Lemma step_transfers bs q acc done :
  fold_left step (map SPI_transfer bs) (Some (q, acc), done)
  = (Some (q, acc ++ bs), done).
Proof.
  revert acc. induction bs as [|b bs IH]; intros acc; simpl.
  - now rewrite app_nil_r.
  - rewrite IH, <- app_assoc. reflexivity.
Qed.

Lemma step_transaction f sel done :
  fold_left step (transaction f) (sel, done) = (None, done ++ [f]).
Proof.
  unfold transaction. rewrite !fold_left_app. simpl.
  rewrite step_transfers. simpl. rewrite Z.eqb_refl. now destruct f.
Qed.

Lemma step_transactions fs sel done :
  snd (fold_left step (concat (map transaction fs)) (sel, done)) = done ++ fs.
Proof.
  revert sel done. induction fs as [|f fs IH]; intros sel done; cbn [map concat].
  - simpl. now rewrite app_nil_r.
  - rewrite fold_left_app, step_transaction, IH, <- app_assoc. reflexivity.
Qed.


(** Whatever the bus has seen before, the transactions of [fs] are read
    back as the frames [fs]. *)
Lemma frames_of_transactions log fs :
  frames_of (log ++ concat (map transaction fs)) = frames_of log ++ fs.
Proof.
  unfold frames_of. rewrite fold_left_app.
  destruct (fold_left step log (None, [])) as [sel done].
  apply step_transactions.
Qed.

Lemma transacts_sent m fs : transacts m fs -> sent m = Some fs.
Proof.
  intros H. unfold sent, calls. rewrite H.
  cbn [option_map]. now rewrite (frames_of_transactions [] fs).
Qed.

Lemma transacts_writeMessage SS_pin command address data :
  transacts (writeMessage SS_pin command address data)
            [message SS_pin command address data].
Proof.
  intros log. unfold writeMessage, bind, perform.
  repeat rewrite <- app_assoc. reflexivity.
Qed.

Lemma well_formed_message SS_pin command address data :
  well_formed (message SS_pin command address data).
Proof.
  split; [reflexivity|]. split; [|apply message_junk].
  repeat constructor; apply to_byte_range.
Qed.

Lemma pure_index {A} (a : list A) i : pure (index a i).
Proof.
  unfold index. destruct (i <? 0); [now left|].
  destruct (nth_error a (Z.to_nat i)) as [x|]; [right; now exists x | now left].
Qed.

Lemma pure_ret {A} (a : A) : pure (ret a).
Proof. right. now exists a. Qed.

Lemma pure_bind {A B} (m : M A) (k : A -> M B) :
  pure m -> (forall x, pure (k x)) -> pure (bind m k).
Proof.
  intros [Hm|[v Hm]] Hk.
  - left. intros log. unfold bind. now rewrite Hm.
  - destruct (Hk v) as [Hn|[w Hw]].
    + left. intros log. unfold bind. now rewrite Hm.
    + right. exists w. intros log. unfold bind. now rewrite Hm.
Qed.

Lemma pure_makeChannelMask_array channels : pure (makeChannelMask_array channels).
Proof.
  unfold makeChannelMask_array.
  repeat (apply pure_bind; [apply pure_index | intros ?]).
  apply pure_ret.
Qed.

Variable pins : list Z.

Lemma framed_ret : framed pins (ret tt).
Proof. right. exists []. split; [|constructor]. intros log. simpl. now rewrite app_nil_r. Qed.

Lemma framed_writeMessage SS_pin command address data :
  In SS_pin pins -> framed pins (writeMessage SS_pin command address data).
Proof.
  intros Hin. right. eexists. split; [apply transacts_writeMessage|].
  constructor; [|constructor]. split; [exact Hin | apply well_formed_message].
Qed.

Lemma framed_seq (m1 m2 : M unit) :
  framed pins m1 -> framed pins m2 -> framed pins (m1 ;; m2).
Proof.
  intros [H1|(fs1 & H1 & W1)] H2.
  - left. intros log. unfold bind. now rewrite H1.
  - destruct H2 as [H2|(fs2 & H2 & W2)].
    + left. intros log. unfold bind. now rewrite H1.
    + right. exists (fs1 ++ fs2). split; [|now apply Forall_app].
      intros log. unfold bind. rewrite H1, H2.
      now rewrite map_app, concat_app, app_assoc.
Qed.

Lemma framed_bind_pure {A} (m : M A) (k : A -> M unit) :
  pure m -> (forall x, framed pins (k x)) -> framed pins (bind m k).
Proof.
  intros [Hm|[v Hm]] Hk.
  - left. intros log. unfold bind. now rewrite Hm.
  - destruct (Hk v) as [Hn|(fs & Hfs & W)].
    + left. intros log. unfold bind. now rewrite Hm.
    + right. exists fs. split; [|exact W].
      intros log. unfold bind. now rewrite Hm.
Qed.

Lemma framed_setChannel_for SS_pin setMode values n :
  In SS_pin pins -> framed pins (setChannel_for SS_pin setMode values n).
Proof.
  intros Hin. induction n as [|n IH]; simpl; [apply framed_ret|].
  apply framed_bind_pure; [apply pure_index | intros v].
  apply framed_seq; [now apply framed_writeMessage | exact IH].
Qed.

Lemma framed_powerUpDown_for SS_pin powerModes n i channelMask :
  In SS_pin pins -> framed pins (powerUpDown_for SS_pin powerModes n i channelMask).
Proof.
  intros Hin. revert i channelMask.
  induction n as [|n IH]; intros i channelMask; simpl; [apply framed_ret|].
  apply framed_bind_pure; [apply pure_index | intros pm].
  apply framed_seq; [now apply framed_writeMessage | apply IH].
Qed.

Lemma framed_perform_request SS_pin r :
  In SS_pin pins -> framed pins (perform_request SS_pin r).
Proof.
  intros Hin. destruct r; simpl.
  - unfold setChannel. destruct (valid_setMode setMode);
      [now apply framed_writeMessage | apply framed_ret].
  - unfold setChannel_array. destruct (valid_setMode setMode);
      [now apply framed_setChannel_for | apply framed_ret].
  - unfold setChannel_DCBA, setChannel_array. destruct (valid_setMode setMode);
      [now apply framed_setChannel_for | apply framed_ret].
  - unfold updateChannel. now apply framed_writeMessage.
  - unfold powerUpDown_array.
    apply framed_bind_pure; [apply pure_makeChannelMask_array | intros mask].
    unfold powerUpDown. now apply framed_writeMessage.
  - unfold powerUpDown_DCBA, powerUpDown. now apply framed_writeMessage.
  - unfold powerUpDown_modes. now apply framed_powerUpDown_for.
  - unfold reset. now apply framed_writeMessage.
  - unfold setInputMode_array.
    apply framed_bind_pure; [apply pure_makeChannelMask_array | intros mask].
    unfold setInputMode. now apply framed_writeMessage.
  - unfold setInputMode_DCBA, setInputMode. now apply framed_writeMessage.
  - unfold useInternalReference. now apply framed_writeMessage.
Qed.

End Transactions.

Lemma framed_weaken pins pins' m :
  incl pins pins' -> framed pins m -> framed pins' m.
Proof.
  intros Hincl [H|(fs & H & W)]; [now left|].
  right. exists fs. split; [exact H|].
  eapply Forall_impl; [|exact W]. intros f [Hin Hwf]. split; [now apply Hincl | exact Hwf].
Qed.

Lemma framed_run rs : framed (map fst rs) (run rs).
Proof.
  induction rs as [|[SS_pin r] rs IH]; simpl; [apply framed_ret|].
  apply framed_seq.
  - apply framed_perform_request. now left.
  - eapply framed_weaken; [|exact IH]. intros x Hx. now right.
Qed.

Lemma run_app rs1 rs2 log :
  run (rs1 ++ rs2) log = (run rs1 ;; run rs2) log.
Proof.
  revert log. induction rs1 as [|[SS_pin r] rs1 IH]; intros log; simpl.
  - reflexivity.
  - unfold bind. destruct (perform_request SS_pin r log) as [[[] log1]|];
      [|reflexivity].
    rewrite IH. reflexivity.
Qed.

(** ** Sketches on the bus *)

(** X1. Whatever public operations a sketch calls, on whatever pins and
    with whatever arguments, and whatever was logged before: if the run
    stays within its arrays, the platform calls it adds are whole
    transactions and nothing else (SPI mode 1, most significant bit
    first, pin low, three bytes, pin high), each on one of the pins the
    sketch passed and carrying three bytes in 0..255 whose first has its
    top two bits at 0. *)
Theorem sketch_adds_transactions (rs : list (Z * request)) (log log' : list call) :
  run rs log = Some (tt, log') ->
  exists fs,
    log' = log ++ concat (map transaction fs)
    /\ Forall (fun f => In (ss_pin f) (map fst rs) /\ well_formed f) fs.
Proof.
  intros Hrun. destruct (framed_run rs) as [Hnone|(fs & Hfs & Hwf)].
  - rewrite Hnone in Hrun. discriminate.
  - exists fs. rewrite Hfs in Hrun. split; [congruence | exact Hwf].
Qed.

Lemma sketch_adds_transactions_witness :
  exists fs,
    [digitalWrite 9 LOW; SPI_transfer 1;
     SPI_setDataMode SPI_MODE1; SPI_setBitOrder MSBFIRST; digitalWrite 10 LOW;
     SPI_transfer 0x0F; SPI_transfer 0x00; SPI_transfer 0x00;
     digitalWrite 10 HIGH]
    = [digitalWrite 9 LOW; SPI_transfer 1] ++ concat (map transaction fs)
    /\ Forall (fun f => In (ss_pin f) (map fst [(10, UpdateChannel 255)])
                        /\ well_formed f) fs.
Proof.
  apply (sketch_adds_transactions [(10, UpdateChannel 255)]
           [digitalWrite 9 LOW; SPI_transfer 1]).
  reflexivity.
Defined.



(** X3. Sketches compose: the frames of one sketch followed by another
    are the frames of the first followed by the frames of the second. *)
Theorem sketch_frames_compose (rs1 rs2 : list (Z * request)) (fs1 fs2 : list frame) :
  sent (run rs1) = Some fs1 ->
  sent (run rs2) = Some fs2 ->
  sent (run (rs1 ++ rs2)) = Some (fs1 ++ fs2).
Proof.
  intros H1 H2.
  destruct (framed_run rs1) as [N1|(gs1 & T1 & _)];
    [unfold sent, calls in H1; rewrite N1 in H1; discriminate|].
  destruct (framed_run rs2) as [N2|(gs2 & T2 & _)];
    [unfold sent, calls in H2; rewrite N2 in H2; discriminate|].
  rewrite (transacts_sent _ _ T1) in H1. rewrite (transacts_sent _ _ T2) in H2.
  injection H1 as <-. injection H2 as <-.
  apply transacts_sent. intros log.
  rewrite run_app. unfold bind. rewrite T1, T2.
  now rewrite map_app, concat_app, app_assoc.
Qed.

Lemma sketch_frames_compose_witness :
  sent (run ([(10, Reset_chip true)] ++ [(9, UseInternalReference false)]))
  = Some ([{| ss_pin := 10; payload := [0x28; 0x00; 0x01] |}]
          ++ [{| ss_pin := 9; payload := [0x38; 0x00; 0x00] |}]).
Proof.
  apply (sketch_frames_compose [(10, Reset_chip true)]
                               [(9, UseInternalReference false)]);
    reflexivity.
Defined.

(** ** The remaining operations *)

(** X4. For either value of [yesno], [useInternalReference] sends exactly
    one frame, with the reference on/off command, the address bits at 0
    and the data word 1 to turn the internal reference on and 0 to turn
    it off, that is the three bytes 0x38 0x00 0x01 or 0x38 0x00 0x00. *)
Theorem useInternalReference_single_frame (SS_pin : Z) (yesno : bool) :
  exists f,
    sent (useInternalReference SS_pin yesno) = Some [f]
    /\ ss_pin f = SS_pin
    /\ command_bits f = command_code Reference_onoff
    /\ address_bits f = 0
    /\ data_word f = (if yesno then 1 else 0)
    /\ payload f = [0x38; 0x00; if yesno then 0x01 else 0x00].
Proof.
  exists (message SS_pin AD56X4_COMMAND_REFERENCE_ONOFF 0 (to_word (of_bool yesno))).
  split; [apply transacts_sent; unfold useInternalReference;
          apply transacts_writeMessage|].
  now destruct yesno.
Qed.

(** X5. For every channel byte, [updateChannel] sends exactly one frame,
    whose three bytes are [8 + channel mod 8], 0 and 0: the update
    command, the low three bits of the channel, and a data word of 0. *)
Theorem updateChannel_payload (SS_pin channel : Z) :
  sent (updateChannel SS_pin channel)
  = Some [{| ss_pin := SS_pin; payload := [8 + channel mod 8; 0; 0] |}].
Proof.
  rewrite (transacts_sent _ [message SS_pin AD56X4_COMMAND_UPDATE_DAC_REGISTER channel 0])
    by (unfold updateChannel; apply transacts_writeMessage).
  unfold message. do 3 f_equal.
  rewrite header_lor. change 7 with (Z.ones 3). rewrite Z.land_ones by lia.
  change (Z.land AD56X4_COMMAND_UPDATE_DAC_REGISTER 56) with 8.
  change (2 ^ 3) with 8.
  pose proof (Z.mod_pos_bound channel 8 ltac:(lia)) as Hr.
  assert (Hcases : channel mod 8 = 0 \/ channel mod 8 = 1 \/ channel mod 8 = 2
                   \/ channel mod 8 = 3 \/ channel mod 8 = 4 \/ channel mod 8 = 5
                   \/ channel mod 8 = 6 \/ channel mod 8 = 7) by lia.
  now repeat destruct Hcases as [->|Hcases]; [..|rewrite Hcases].
Qed.

(** X6. The mask form of [setInputMode] puts its channel mask byte into
    the data word as it is: one frame with the set LDAC command, address
    bits 0, and a data word equal to the byte.  Unlike [powerUpDown] it
    does not clear bits 7:4; the four bit bound comes from the callers,
    which pass what [makeChannelMask] returns. *)
Theorem setInputMode_mask_unchanged (SS_pin channelMask : Z) :
  is_byte channelMask ->
  exists f,
    sent (setInputMode SS_pin channelMask) = Some [f]
    /\ command_bits f = command_code Set_LDAC
    /\ address_bits f = 0
    /\ data_word f = channelMask.
Proof.
  intros Hbyte. eexists.
  split; [apply transacts_sent; unfold setInputMode; apply transacts_writeMessage|].
  split; [now rewrite message_command|].
  split; [now rewrite message_address|].
  assert (Hword : is_word channelMask) by (unfold is_byte, is_word in *; lia).
  rewrite to_word_id by exact Hword. now apply message_data.
Qed.

Lemma setInputMode_mask_unchanged_witness :
  exists f,
    sent (setInputMode 10 0xF5) = Some [f]
    /\ command_bits f = command_code Set_LDAC
    /\ address_bits f = 0
    /\ data_word f = 0xF5.
Proof.
  apply (setInputMode_mask_unchanged 10 0xF5). unfold is_byte. lia.
Defined.

(** ** Several channels at once *)

(** X7. For every set mode byte, recognised or not, and from every log,
    [setChannel] with four values does what four single channel calls
    do, for channel D, then C, then B, then A, with value_D, value_C,
    value_B, value_A. *)
Theorem setChannel_DCBA_as_single_calls
    (SS_pin setMode vD vC vB vA : Z) (log : list call) :
  setChannel_DCBA SS_pin setMode vD vC vB vA log
  = (setChannel SS_pin setMode AD56X4_CHANNEL_D vD ;;
     setChannel SS_pin setMode AD56X4_CHANNEL_C vC ;;
     setChannel SS_pin setMode AD56X4_CHANNEL_B vB ;;
     setChannel SS_pin setMode AD56X4_CHANNEL_A vA) log.
Proof.
  unfold setChannel_DCBA, setChannel_array, setChannel.
  destruct (valid_setMode setMode); [|reflexivity].
  reflexivity.
Qed.

(** X8. From every log, [powerUpDown] with an array of four power modes
    does what four calls of the form with four booleans do, each with
    one channel set: entry 0 of the array for channel A alone, entry 1
    for B, entry 2 for C and entry 3 for D. *)
Theorem powerUpDown_modes_as_single_calls
    (SS_pin m0 m1 m2 m3 : Z) (log : list call) :
  powerUpDown_modes SS_pin [m0; m1; m2; m3] log
  = (powerUpDown_DCBA SS_pin m0 false false false true ;;
     powerUpDown_DCBA SS_pin m1 false false true false ;;
     powerUpDown_DCBA SS_pin m2 false true false false ;;
     powerUpDown_DCBA SS_pin m3 true false false false) log.
Proof.
  unfold powerUpDown_DCBA. rewrite !makeChannelMask_byte.
  unfold powerUpDown_modes. cbv [powerUpDown_for].
  reflexivity.
Qed.

(** ** Arrays *)

(** X9. The array forms read entries 0 to 3 of their array and nothing
    beyond: whatever follows the first four entries, each of them does,
    from every log, what it does on the first four entries alone. *)
Theorem array_forms_read_first_four
    (SS_pin setMode powerMode v0 v1 v2 v3 : Z) (vrest : list Z)
    (b0 b1 b2 b3 : bool) (brest : list bool) (log : list call) :
  setChannel_array SS_pin setMode (v0 :: v1 :: v2 :: v3 :: vrest) log
  = setChannel_array SS_pin setMode [v0; v1; v2; v3] log
  /\ powerUpDown_modes SS_pin (v0 :: v1 :: v2 :: v3 :: vrest) log
     = powerUpDown_modes SS_pin [v0; v1; v2; v3] log
  /\ makeChannelMask_array (b0 :: b1 :: b2 :: b3 :: brest) log
     = makeChannelMask_array [b0; b1; b2; b3] log
  /\ powerUpDown_array SS_pin powerMode (b0 :: b1 :: b2 :: b3 :: brest) log
     = powerUpDown_array SS_pin powerMode [b0; b1; b2; b3] log
  /\ setInputMode_array SS_pin (b0 :: b1 :: b2 :: b3 :: brest) log
     = setInputMode_array SS_pin [b0; b1; b2; b3] log.
Proof.
  repeat apply conj; reflexivity.
Qed.

(** X10. With one of the three set modes, [setChannel] on an array of
    fewer than four values reads outside the array; so do the array
    forms of [powerUpDown] and [setInputMode] on fewer than four
    entries.  (With an unrecognised set mode [setChannel] never reads
    its array.) *)
Theorem array_forms_need_four_entries
    (SS_pin powerMode : Z) (s : set_mode) (values : list Z)
    (channels : list bool) (log : list call) :
  (length values < 4)%nat ->
  (length channels < 4)%nat ->
  setChannel_array SS_pin (set_mode_define s) values log = None
  /\ powerUpDown_modes SS_pin values log = None
  /\ powerUpDown_array SS_pin powerMode channels log = None
  /\ setInputMode_array SS_pin channels log = None.
Proof.
  intros Hv Hc.
  destruct values as [|v0 [|v1 [|v2 [|v3 vrest]]]]; simpl in Hv; try lia;
    destruct channels as [|b0 [|b1 [|b2 [|b3 brest]]]]; simpl in Hc; try lia;
    destruct s; repeat apply conj; reflexivity.
Qed.

Lemma array_forms_need_four_entries_witness :
  setChannel_array 10 (set_mode_define Input_DAC) [1; 2; 3] [] = None
  /\ powerUpDown_modes 10 [1; 2; 3] [] = None
  /\ powerUpDown_array 10 AD56X4_POWERMODE_TRISTATE [true] [] = None
  /\ setInputMode_array 10 [true] [] = None.
Proof.
  apply (array_forms_need_four_entries 10 AD56X4_POWERMODE_TRISTATE Input_DAC
           [1; 2; 3] [true] []); simpl; lia.
Defined.

(** ** What the wire can carry *)

(** X11. Whatever set mode byte it is given, [setChannel] (with one
    channel or with four values) sends nothing but write commands: every
    frame it sends has the command bits of write input register, of
    write and update channel, or of write input register and update
    all.  It cannot be made to send an update, power, reset, LDAC or
    reference command. *)
Theorem setChannel_only_write_commands
    (SS_pin setMode channel value vD vC vB vA : Z) :
  exists fs gs,
    sent (setChannel SS_pin setMode channel value) = Some fs
    /\ sent (setChannel_DCBA SS_pin setMode vD vC vB vA) = Some gs
    /\ Forall (fun f =>
                 In (command_bits f)
                    (map command_code
                         [Write_input_register; Write_update_channel;
                          Write_input_register_update_all]))
              (fs ++ gs).
Proof.
  destruct (valid_setMode setMode) eqn:Hvalid.
  - do 2 eexists.
    split; [apply (emits_sent _ tt), emits_setChannel, Hvalid|].
    split; [apply (emits_sent _ tt); unfold setChannel_DCBA;
            apply emits_setChannel_array, Hvalid|].
    unfold valid_setMode in Hvalid.
    apply orb_true_iff in Hvalid as [Hvalid|Hvalid];
      [apply orb_true_iff in Hvalid as [Hvalid|Hvalid]|];
      apply Z.eqb_eq in Hvalid; subst setMode; cbn [app];
      repeat (apply Forall_cons; [rewrite message_command; simpl; tauto|]);
      apply Forall_nil.
  - exists [], []. unfold setChannel_DCBA, setChannel_array, setChannel.
    rewrite Hvalid. repeat split. constructor.
Qed.

(** X12. A frame tells which message it carries: if [writeMessage] sends
    the same frame for two commands of the table, two addresses of the
    table and two 16 bit data words, then the commands, the addresses
    and the data words are the same. *)
Theorem frame_determines_message
    (SS_pin : Z) (c c' : command) (a a' : channel) (data data' : Z) :
  is_word data ->
  is_word data' ->
  sent (writeMessage SS_pin (command_define c) (channel_define a) data)
  = sent (writeMessage SS_pin (command_define c') (channel_define a') data') ->
  c = c' /\ a = a' /\ data = data'.
Proof.
  intros Hd Hd' Heq.
  rewrite !(transacts_sent _ _ (transacts_writeMessage _ _ _ _)) in Heq.
  injection Heq as Hheader Hhigh Hlow.
  split; [|split].
  - pose proof (f_equal (fun h => Z.land (Z.shiftr h 3) 7) Hheader) as Hc.
    cbv beta in Hc. rewrite !header_command in Hc.
    destruct c, c'; try reflexivity; discriminate Hc.
  - pose proof (f_equal (fun h => Z.land h 7) Hheader) as Ha.
    cbv beta in Ha. rewrite !header_address in Ha.
    destruct a, a'; try reflexivity; discriminate Ha.
  - rewrite <- (high_low_word data), <- (high_low_word data') by assumption.
    now rewrite Hhigh, Hlow.
Qed.

Lemma frame_determines_message_witness :
  Reset = Reset /\ Ch_B = Ch_B /\ 513 = 513.
Proof.
  apply (frame_determines_message 10 Reset Reset Ch_B Ch_B 513 513);
    [unfold is_word; lia | unfold is_word; lia | reflexivity].
Defined.

(** X13. The booleans of the four argument forms can be read back from
    the wire.  In the frame [powerUpDown] sends, bits 0, 1, 2, 3 of the
    data word are the booleans for channels A, B, C, D, bits 4 and 5 are
    bits 4 and 5 of the power mode byte, and no higher bit is set; in
    the frame [setInputMode] sends, bits 0 to 3 are the booleans for A
    to D and no higher bit is set. *)
Theorem booleans_read_back_from_data_word (SS_pin powerMode : Z) (D C B A : bool) :
  exists f g,
    sent (powerUpDown_DCBA SS_pin powerMode D C B A) = Some [f]
    /\ sent (setInputMode_DCBA SS_pin D C B A) = Some [g]
    /\ map (Z.testbit (data_word f)) [0; 1; 2; 3] = [A; B; C; D]
    /\ map (Z.testbit (data_word f)) [4; 5] = map (Z.testbit powerMode) [4; 5]
    /\ Z.shiftr (data_word f) 6 = 0
    /\ map (Z.testbit (data_word g)) [0; 1; 2; 3] = [A; B; C; D]
    /\ Z.shiftr (data_word g) 4 = 0.
Proof.
  do 2 eexists.
  split; [apply (emits_sent _ tt), emits_powerUpDown_DCBA|].
  split; [apply (emits_sent _ tt), emits_setInputMode_DCBA|].
  rewrite !message_data
    by (apply power_data_word
        || (pose proof (makeChannelMask_range D C B A); unfold is_word; lia)).
  assert (H0 : Z.testbit (makeChannelMask D C B A) 0 = A) by now destruct D, C, B, A.
  assert (H1 : Z.testbit (makeChannelMask D C B A) 1 = B) by now destruct D, C, B, A.
  assert (H2 : Z.testbit (makeChannelMask D C B A) 2 = C) by now destruct D, C, B, A.
  assert (H3 : Z.testbit (makeChannelMask D C B A) 3 = D) by now destruct D, C, B, A.
  assert (H4 : Z.testbit (makeChannelMask D C B A) 4 = false)
    by now destruct D, C, B, A.
  assert (H5 : Z.testbit (makeChannelMask D C B A) 5 = false)
    by now destruct D, C, B, A.
  split; [|split; [|split; [apply power_data_high|split]]].
  - rewrite power_data_lor, makeChannelMask_low. cbn [map].
    rewrite !Z.lor_spec, !Z.land_spec, H0, H1, H2, H3.
    change (Z.testbit 48 0) with false. change (Z.testbit 48 1) with false.
    change (Z.testbit 48 2) with false. change (Z.testbit 48 3) with false.
    now rewrite !andb_false_r.
  - rewrite power_data_lor, makeChannelMask_low. cbn [map].
    rewrite !Z.lor_spec, !Z.land_spec, H4, H5.
    change (Z.testbit 48 4) with true. change (Z.testbit 48 5) with true.
    now rewrite !andb_true_r, !orb_false_r.
  - cbn [map]. now rewrite H0, H1, H2, H3.
  - now destruct D, C, B, A.
Qed.
